(** * One-shot channel of aiosync (src/aio_sync/oneshot.py, src/aiosync/oneshot.py)

    Shallow embedding of the two one-shot channel modules.

    - Python objects stored in the channel are [pyval]: Python's [None] or
      some other object of a payload type [A].  A field typed [T | None] is a
      [pyval]; a payload type [T] that admits [None] is one whose values
      may be [PyNone].
    - [asyncio.Event] is its [is_set()] flag: [set()] makes it true,
      [wait()] returns at once when it is true and suspends otherwise.
    - Methods run in a small state monad with Python exceptions and
      suspension at an [await]. *)

From Stdlib Require Import List Bool PeanoNat Lia.
Import ListNotations.

Section Model.

Context {A : Type}.

(** Python values held in a [T | None] field. *)
Inductive pyval : Type :=
| PyNone : pyval
| PyObj (a : A) : pyval.

End Model.

Arguments pyval : clear implicits.

(** The exception classes the methods can raise: [send] raises
    [ValueError] on a second call; the [assert] statements raise
    [AssertionError]. *)
Inductive exc : Type :=
| ValueError : exc
| AssertionError : exc.

(** Outcome of one method call: it returns, raises, or suspends at
    [await ... wait()] on an event that is not set. *)
Inductive outcome (X : Type) : Type :=
| Ret (x : X) : outcome X
| Raise (e : exc) : outcome X
| Suspend : outcome X.
Arguments Ret {X} x.
Arguments Raise {X} e.
Arguments Suspend {X}.

(** State and exception monad over the object a method works on. *)
Definition St (S X : Type) : Type := S -> outcome X * S.

Definition ret {S X} (x : X) : St S X := fun s => (Ret x, s).

Definition bind {S X Y} (m : St S X) (k : X -> St S Y) : St S Y :=
  fun s =>
    match m s with
    | (Ret x, s') => k x s'
    | (Raise e, s') => (Raise e, s')
    | (Suspend, s') => (Suspend, s')
    end.

Definition raise {S X} (e : exc) : St S X := fun s => (Raise e, s).

Definition gets {S X} (f : S -> X) : St S X := fun s => (Ret (f s), s).

Definition modify {S} (f : S -> S) : St S unit := fun s => (Ret tt, f s).

(** [await event.wait()]: returns at once when the event is set, else the
    calling task suspends. *)
Definition await_wait {S} (is_set : S -> bool) : St S unit :=
  fun s => if is_set s then (Ret tt, s) else (Suspend, s).



Notation "x <- m ;; k" := (bind m (fun x => k))
  (at level 61, m at next level, right associativity).
Notation "m ;;; k" := (bind m (fun _ => k))
  (at level 61, right associativity).

(** ** src/aio_sync/oneshot.py *)
Section AioSync.

Context {A : Type}.

(** [_SharedState]: [waker: Event], [sent: bool], [value: T | None]. *)
Record SharedState : Type := mkSharedState {
  waker : bool;
  sent : bool;
  value : pyval A
}.

(** [_SharedState[T]()]: fresh event, [sent = False], [value = None]. *)
Definition new_SharedState : SharedState :=
  {| waker := false; sent := false; value := PyNone |}.

Definition set_value (v : pyval A) : St SharedState unit :=
  modify (fun s => {| waker := waker s; sent := sent s; value := v |}).
Definition set_sent (b : bool) : St SharedState unit :=
  modify (fun s => {| waker := waker s; sent := b; value := value s |}).
(** [self._state.waker.set()] *)
Definition waker_set : St SharedState unit :=
  modify (fun s => {| waker := true; sent := sent s; value := value s |}).
(** [self._state.waker.is_set()] *)
Definition waker_is_set : St SharedState bool := gets waker.

(** [OneShotSender.send], run on [self._state]. *)
Definition send (v : pyval A) : St SharedState (pyval A) :=
  b <- waker_is_set ;;
  if b then raise ValueError
  else
    set_value v ;;;
    set_sent true ;;;
    waker_set ;;;
    ret PyNone.

(** [OneShotReceiver.try_recv], run on [self._state]. *)
Definition try_recv : St SharedState (pyval A) :=
  b <- waker_is_set ;;
  if b then
    ok <- gets sent ;;
    if ok then gets value else raise AssertionError
  else ret PyNone.

(** [OneShotReceiver.recv], run on [self._state]. *)
Definition recv : St SharedState (pyval A) :=
  await_wait waker ;;;
  ok <- gets sent ;;
  if ok then gets value else raise AssertionError.

(** The Python heap holding the shared states: the object at each
    location, and the next free location. *)
Record Heap : Type := mkHeap {
  cells : nat -> SharedState;
  next : nat
}.

Definition upd (c : nat -> SharedState) (l : nat) (x : SharedState) :
  nat -> SharedState :=
  fun l' => if Nat.eqb l' l then x else c l'.

(** [OneShotSender] and [OneShotReceiver]: each holds a reference
    [_state] to a shared state. *)
Record OneShotSender : Type := mkOneShotSender { sender_state : nat }.
Record OneShotReceiver : Type := mkOneShotReceiver { receiver_state : nat }.

(** [oneshot_channel()]: allocate one [_SharedState] and return a sender and
    a receiver that both refer to it. *)
Definition oneshot_channel (h : Heap) : (OneShotSender * OneShotReceiver) * Heap :=
  let l := next h in
  ((mkOneShotSender l, mkOneShotReceiver l),
   {| cells := upd (cells h) l new_SharedState; next := S l |}).

(** Run a method body on the shared state at location [l]. *)
Definition on_state {X} (l : nat) (m : St SharedState X) (h : Heap) :
  outcome X * Heap :=
  let (o, c) := m (cells h l) in
  (o, {| cells := upd (cells h) l c; next := next h |}).

Definition OneShotSender_send (self : OneShotSender) (v : pyval A) :
  St Heap (pyval A) := on_state (sender_state self) (send v).
Definition OneShotReceiver_try_recv (self : OneShotReceiver) :
  St Heap (pyval A) := on_state (receiver_state self) try_recv.
Definition OneShotReceiver_recv (self : OneShotReceiver) :
  St Heap (pyval A) := on_state (receiver_state self) recv.

End AioSync.

Arguments SharedState : clear implicits.
Arguments Heap : clear implicits.

(** ** src/aiosync/oneshot.py *)
Section AioSyncObject.

Context {A : Type}.

(** [OneShot]: [_waker: Event], [_sent: bool], [_value: T | None]. *)
Record OneShot : Type := mkOneShot {
  _waker : bool;
  _sent : bool;
  _value : pyval A
}.

(** [OneShot[T]()] *)
Definition new_OneShot : OneShot :=
  {| _waker := false; _sent := false; _value := PyNone |}.

(** [OneShot.send] *)
Definition OneShot_send (v : pyval A) : St OneShot (pyval A) :=
  b <- gets _waker ;;
  if b then raise ValueError
  else
    modify (fun s => {| _waker := _waker s; _sent := _sent s; _value := v |}) ;;;
    modify (fun s => {| _waker := _waker s; _sent := true; _value := _value s |}) ;;;
    modify (fun s => {| _waker := true; _sent := _sent s; _value := _value s |}) ;;;
    ret PyNone.

(** [OneShot.try_recv]; its bare [return] returns [None]. *)
Definition OneShot_try_recv : St OneShot (pyval A) :=
  b <- gets _waker ;;
  if b then
    ok <- gets _sent ;;
    if ok then gets _value else raise AssertionError
  else ret PyNone.

(** [OneShot.recv] *)
Definition OneShot_recv : St OneShot (pyval A) :=
  await_wait _waker ;;;
  ok <- gets _sent ;;
  if ok then gets _value else raise AssertionError.

End AioSyncObject.

Arguments OneShot : clear implicits.

(** ** Sequences of calls *)
Section Runs.

Context {A : Type}.

(** One call made by the program using the channel. *)
Inductive op : Type :=
| OpSend (v : pyval A) : op
| OpTryRecv : op
| OpRecv : op.

(** A caller issues the calls in order, catching any exception a call
    raises; a [recv] that suspends is awaited and nothing else runs, so the
    sequence ends there. *)
Fixpoint run {S} (step : op -> St S (pyval A)) (ops : list op) (s : S) :
  list (outcome (pyval A)) * S :=
  match ops with
  | [] => ([], s)
  | o :: ops' =>
      match step o s with
      | (Suspend, s') => ([Suspend], s')
      | (r, s') => let (rs, s'') := run step ops' s' in (r :: rs, s'')
      end
  end.

(** The methods of [_SharedState]'s handles, as run on the state itself. *)
Definition cell_step (o : op) : St (SharedState A) (pyval A) :=
  match o with
  | OpSend v => send v
  | OpTryRecv => try_recv
  | OpRecv => recv
  end.

(** aio_sync: calls through a sender and a receiver. *)
Definition channel_step (tx : OneShotSender) (rx : OneShotReceiver) (o : op) :
  St (Heap A) (pyval A) :=
  match o with
  | OpSend v => OneShotSender_send tx v
  | OpTryRecv => OneShotReceiver_try_recv rx
  | OpRecv => OneShotReceiver_recv rx
  end.

(** aiosync: calls on a single [OneShot] object. *)
Definition oneshot_step (o : op) : St (OneShot A) (pyval A) :=
  match o with
  | OpSend v => OneShot_send v
  | OpTryRecv => OneShot_try_recv
  | OpRecv => OneShot_recv
  end.

(** Create a channel with [oneshot_channel()] in heap [h], then make the
    calls [ops] through its sender and receiver. *)
Definition run_channel (ops : list op) (h : Heap A) :
  list (outcome (pyval A)) * Heap A :=
  let '((tx, rx), h') := oneshot_channel h in run (channel_step tx rx) ops h'.

(** Create a [OneShot()] and make the calls [ops] on it. *)
Definition run_oneshot (ops : list op) : list (outcome (pyval A)) * OneShot A :=
  run oneshot_step ops new_OneShot.

(** The state of a fresh shared state after the calls [ops]. *)
Definition reached (ops : list op) : SharedState A :=
  snd (run cell_step ops new_SharedState).

(** The calls made, each with its outcome. *)
Definition history (ops : list op) : list (op * outcome (pyval A)) :=
  combine ops (fst (run cell_step ops new_SharedState)).

(** The value of the first [send] of a history that returned. *)
Fixpoint first_sent (hs : list (op * outcome (pyval A))) : option (pyval A) :=
  match hs with
  | [] => None
  | (OpSend v, Ret _) :: _ => Some v
  | _ :: hs' => first_sent hs'
  end.

End Runs.

Arguments op : clear implicits.

Definition init_heap {A} : Heap A :=
  {| cells := fun _ => new_SharedState; next := 0 |}.

Example scenario_ints :
  fst (run_channel
         [OpTryRecv; OpSend (PyObj 4); OpTryRecv; OpSend (PyObj 5); OpTryRecv]
         init_heap)
  = [Ret PyNone; Ret PyNone; Ret (PyObj 4); Raise ValueError; Ret (PyObj 4)].
Proof. reflexivity. Qed.

(** ** What the rest of the code adds *)
Section Resume.

Context {A : Type}.

(** The rest of [OneShotReceiver.recv] once [await self._state.waker.wait()]
    has returned to a suspended task (lines 52-57). *)
Definition recv_resume : St (SharedState A) (pyval A) :=
  ok <- gets sent ;;
  if ok then gets value else raise AssertionError.

Definition OneShotReceiver_recv_resume (self : OneShotReceiver) :
  St (Heap A) (pyval A) := on_state (receiver_state self) recv_resume.

(** [send] calls of a history, with their outcomes. *)
Definition is_send (o : op A) : bool :=
  match o with OpSend _ => true | _ => false end.

Definition send_outcomes (hs : list (op A * outcome (pyval A))) :
  list (outcome (pyval A)) :=
  map snd (filter (fun p => is_send (fst p)) hs).

End Resume.

(** The [OneShot] named tuple of src/aio_sync/oneshot.py (lines 95-120). *)
Module aio_sync.

Record OneShot : Type := mkOneShot {
  sender : OneShotSender;
  receiver : OneShotReceiver
}.

(** [OneShot.channel()]: [oneshot_channel()], wrapped in the named tuple. *)
Definition channel {A} (h : Heap A) : OneShot * Heap A :=
  let '((s, r), h') := oneshot_channel h in (mkOneShot s r, h').

End aio_sync.

(** * Properties *)

Section Props.

Context {A : Type}.

(** The shared state after a send that went through. *)
Definition filled (v : pyval A) : SharedState A :=
  {| waker := true; sent := true; value := v |}.

(** ** Single calls on the shared state *)

Lemma send_eq (v : pyval A) (s : SharedState A) :
  send v s = if waker s then (Raise ValueError, s) else (Ret PyNone, filled v).
Proof. destruct s as [[|] ? ?]; reflexivity. Qed.

Lemma try_recv_eq (s : SharedState A) :
  try_recv s =
  (if waker s then (if sent s then Ret (value s) else Raise AssertionError)
   else Ret PyNone, s).
Proof. destruct s as [[|] [|] ?]; reflexivity. Qed.

Lemma recv_eq (s : SharedState A) :
  recv s =
  (if waker s then (if sent s then Ret (value s) else Raise AssertionError)
   else Suspend, s).
Proof. destruct s as [[|] [|] ?]; reflexivity. Qed.

(** ** Runs from an empty and from a filled state *)

Lemma run_filled (ops : list (op A)) (v : pyval A) :
  run cell_step ops (filled v) = (map (fun o => match o with
                                         | OpSend _ => Raise ValueError
                                         | _ => Ret v end) ops, filled v).
Proof.
  induction ops as [|o ops IH]; [reflexivity|].
  destruct o; cbn [run cell_step];
    [rewrite send_eq | rewrite try_recv_eq | rewrite recv_eq]; cbn;
    rewrite IH; reflexivity.
Qed.

Lemma first_sent_filled (ops : list (op A)) (v : pyval A) :
  first_sent (combine ops (fst (run cell_step ops (filled v)))) = None.
Proof.
  rewrite run_filled; cbn.
  induction ops as [|[] ops IH]; cbn; auto.
Qed.

(** The state a run reaches is the empty one until a send goes through,
    and the state filled with the first sent value after that. *)
Lemma reached_eq (ops : list (op A)) :
  reached ops =
  match first_sent (history ops) with
  | Some v => filled v
  | None => new_SharedState
  end.
Proof.
  unfold reached, history.
  induction ops as [|o ops IH]; [reflexivity|].
  destruct o as [v| |]; cbn [run cell_step].
  - rewrite send_eq; cbn.
    rewrite run_filled; cbn. reflexivity.
  - rewrite try_recv_eq; cbn.
    destruct (run cell_step ops new_SharedState) eqn:E; cbn in *. exact IH.
  - rewrite recv_eq; cbn. destruct ops; reflexivity.
Qed.

Lemma run_cons {S} (step : op A -> St S (pyval A)) o ops (s : S) :
  run step (o :: ops) s =
  match step o s with
  | (Suspend, s') => ([Suspend], s')
  | (r, s') => (r :: fst (run step ops s'), snd (run step ops s'))
  end.
Proof.
  cbn. destruct (step o s) as [[] s']; try reflexivity;
    destruct (run step ops s'); reflexivity.
Qed.

Lemma first_sent_some (hs : list (op A * outcome (pyval A))) :
  first_sent hs <> None <-> exists w r, In (OpSend w, Ret r) hs.
Proof.
  induction hs as [|[o r] hs IH]; cbn.
  - split; [congruence | intros (w & r & [])].
  - destruct o, r; cbn;
      try (split; [intros _; eauto | congruence]);
      rewrite IH; split;
      try (intros (w & r' & Hin); exists w, r'; now right);
      intros (w & r' & [Heq | Hin]); try discriminate; eauto.
Qed.

Lemma map_repeat' {X Y} (f : X -> Y) (x : X) n :
  map f (repeat x n) = repeat (f x) n.
Proof. induction n; cbn; congruence. Qed.

(** A state where a set event comes with [sent] true never makes an
    [assert] fail, in any run from it. *)
Lemma run_no_assert (ops : list (op A)) (s : SharedState A) :
  (waker s = true -> sent s = true) ->
  ~ In (Raise AssertionError) (fst (run cell_step ops s)).
Proof.
  revert s; induction ops as [|o ops IH]; intros s Hs; [intros []|].
  rewrite run_cons.
  destruct o as [v| |]; cbn [cell_step];
    [rewrite send_eq | rewrite try_recv_eq | rewrite recv_eq];
    destruct s as [[|] [|] va]; cbn in *;
    try (specialize (Hs eq_refl); discriminate);
    try (intros [H | H]; [discriminate | revert H; apply IH; cbn; auto]);
    intros [H | []]; discriminate.
Qed.

(** ** The two modules against the shared state *)

Lemma run_sim {S T} (st1 : op A -> St S (pyval A)) (st2 : op A -> St T (pyval A))
  (R : S -> T -> Prop) :
  (forall o s t, R s t ->
     fst (st1 o s) = fst (st2 o t) /\ R (snd (st1 o s)) (snd (st2 o t))) ->
  forall ops s t, R s t ->
    fst (run st1 ops s) = fst (run st2 ops t) /\
    R (snd (run st1 ops s)) (snd (run st2 ops t)).
Proof.
  intros Hstep ops; induction ops as [|o ops IH]; intros s t HR; cbn; [auto|].
  destruct (Hstep o s t HR) as [Ho HR'].
  destruct (st1 o s) as [r1 s1], (st2 o t) as [r2 t2]; cbn in Ho, HR'; subst r2.
  destruct (IH s1 t2 HR') as [Hr HR''].
  destruct r1;
    try (destruct (run st1 ops s1), (run st2 ops t2); cbn in *; subst; auto).
Qed.

Lemma upd_same (c : nat -> SharedState A) l x : upd c l x l = x.
Proof. unfold upd; rewrite Nat.eqb_refl; reflexivity. Qed.

Lemma channel_cell_sim (l : nat) :
  forall ops (h : Heap A) (c : SharedState A), cells h l = c ->
    fst (run (channel_step (mkOneShotSender l) (mkOneShotReceiver l)) ops h)
    = fst (run cell_step ops c) /\
    cells (snd (run (channel_step (mkOneShotSender l) (mkOneShotReceiver l)) ops h)) l
    = snd (run cell_step ops c).
Proof.
  intros ops h0 c0 H0.
  refine (run_sim _ _ (fun h c => cells h l = c) _ ops h0 c0 H0).
  intros o h c Hc; cbn beta.
  destruct o; cbn [channel_step cell_step];
    unfold OneShotSender_send, OneShotReceiver_try_recv, OneShotReceiver_recv,
      on_state; cbn [sender_state receiver_state]; rewrite Hc;
    match goal with |- context [let (_, _) := ?m c in _] => destruct (m c) end;
    cbn; rewrite upd_same; auto.
Qed.

(** Calls through a fresh aio_sync channel behave as the calls on a fresh
    shared state. *)
Lemma run_channel_cell (ops : list (op A)) (h : Heap A) :
  fst (run_channel ops h) = fst (run cell_step ops new_SharedState).
Proof.
  unfold run_channel, oneshot_channel.
  apply channel_cell_sim; cbn. apply upd_same.
Qed.

Definition as_cell (o : OneShot A) : SharedState A :=
  {| waker := _waker o; sent := _sent o; value := _value o |}.

Lemma oneshot_cell_sim :
  forall ops (o : OneShot A) (c : SharedState A), as_cell o = c ->
    fst (run oneshot_step ops o) = fst (run cell_step ops c) /\
    as_cell (snd (run oneshot_step ops o)) = snd (run cell_step ops c).
Proof.
  intros ops o0 c0 H0.
  refine (run_sim _ _ (fun o c => as_cell o = c) _ ops o0 c0 H0).
  intros op o c <-.
  destruct o as [[|] [|] ?], op; cbn; auto.
Qed.

Lemma run_oneshot_cell (ops : list (op A)) :
  fst (run_oneshot ops) = fst (run cell_step ops new_SharedState).
Proof. apply oneshot_cell_sim. reflexivity. Qed.

End Props.

(** * The claims *)

(** C1: on a fresh channel, [sender.send(v)] returns [None] and a following
    [receiver.try_recv()] returns [v], the value sent. *)
Theorem send_then_try_recv {A} (h : Heap A) (v : pyval A) :
  fst (run_channel [OpSend v; OpTryRecv] h) = [Ret PyNone; Ret v].
Proof. rewrite run_channel_cell. reflexivity. Qed.

(** C2: [send] raises [ValueError] (the spec's AlreadySentError) exactly
    when a previous [send] on the same shared state went through; on a
    fresh shared state it goes through. *)
Theorem send_raises_iff_sent {A} (ops : list (op A)) (v : pyval A) :
  (fst (send v (reached ops)) = Raise ValueError <->
   exists w r, In (OpSend w, Ret r) (history ops)) /\
  fst (send v new_SharedState) = Ret PyNone.
Proof.
  split; [|reflexivity].
  rewrite <- first_sent_some, reached_eq.
  destruct (first_sent (history ops)); cbn; split; congruence.
Qed.

(** C3: once a [send] of [v1] went through, a further [send] raises
    [ValueError] and leaves the shared state as it was, and [try_recv]
    still returns [v1]. *)
Theorem second_send_keeps_value {A} (ops : list (op A)) (v1 v2 : pyval A) :
  first_sent (history ops) = Some v1 ->
  send v2 (reached ops) = (Raise ValueError, reached ops) /\
  fst (try_recv (reached ops)) = Ret v1.
Proof. intros H. rewrite reached_eq, H. split; reflexivity. Qed.

(** C4 (as stated, refuted): after [send(None)] the event is set and
    [sent] is true, but the [value] field holds [None]. *)
Lemma signal_iff_sent_and_present_fails :
  ~ (forall ops : list (op nat),
       waker (reached ops) = true <->
       sent (reached ops) = true /\ value (reached ops) <> PyNone).
Proof.
  intros H. destruct (H [OpSend PyNone]) as [H1 _].
  destruct (H1 eq_refl) as [_ H2]. apply H2. reflexivity.
Qed.

(** C4 (amended): in every state reached from a fresh shared state, the
    event is set exactly when [sent] is true; while it is unset [value] is
    [None]; once it is set [value] holds the value of the send that went
    through. *)
Theorem signal_iff_sent {A} (ops : list (op A)) :
  waker (reached ops) = sent (reached ops) /\
  (waker (reached ops) = true \/ value (reached ops) = PyNone) /\
  (waker (reached ops) = true <->
   first_sent (history ops) = Some (value (reached ops))).
Proof.
  rewrite reached_eq. destruct (first_sent (history ops)); cbn.
  - repeat split; auto.
  - repeat split; auto; congruence.
Qed.

(** C5: the aio_sync pair of handles over one shared state and the aiosync
    [OneShot] object give the same outcome to every sequence of calls (the
    same returned values, the same exception classes at the same calls,
    suspension at the same call), and keep the same state.  The message
    strings of the exceptions embed the object's repr and are not
    modelled. *)
Theorem aio_sync_aiosync_same {A} (ops : list (op A)) (h : Heap A) :
  fst (run_channel ops h) = fst (run_oneshot ops) /\
  as_cell (snd (run_oneshot ops)) = reached ops.
Proof.
  rewrite run_channel_cell, run_oneshot_cell. split; [reflexivity|].
  apply oneshot_cell_sim. reflexivity.
Qed.

(** C6: [try_recv()] on a fresh channel returns [None]; in every reached
    state it returns (never raises, never suspends) the value sent if a
    send went through, and [None] otherwise. *)
Theorem try_recv_result {A} (ops : list (op A)) (h : Heap A) :
  fst (run_channel [OpTryRecv] h) = [Ret PyNone] /\
  try_recv (reached ops) =
  (Ret (match first_sent (history ops) with Some v => v | None => PyNone end),
   reached ops).
Proof.
  split; [rewrite run_channel_cell; reflexivity|].
  rewrite reached_eq. destruct (first_sent (history ops)); reflexivity.
Qed.

(** C7: when the event is set, [recv()] returns at once, without
    suspending, the value of the send that went through. *)
Theorem recv_when_set {A} (ops : list (op A)) :
  waker (reached ops) = true ->
  exists v, first_sent (history ops) = Some v /\
            recv (reached ops) = (Ret v, reached ops).
Proof.
  rewrite reached_eq. destruct (first_sent (history ops)) as [v|]; cbn.
  - intros _. exists v. split; reflexivity.
  - discriminate.
Qed.

(** C8: [try_recv] and [recv] leave the state unchanged, in both modules;
    so after a [send] of [v], any number of [try_recv()] calls all return
    [v]. *)
Theorem receivers_do_not_mutate {A} (s : SharedState A) (o : OneShot A)
  (h : Heap A) (v : pyval A) (n : nat) :
  snd (try_recv s) = s /\ snd (recv s) = s /\
  snd (OneShot_try_recv o) = o /\ snd (OneShot_recv o) = o /\
  fst (run_channel (OpSend v :: repeat OpTryRecv n) h) =
  Ret PyNone :: repeat (Ret v) n.
Proof.
  rewrite try_recv_eq, recv_eq.
  split; [reflexivity|]. split; [reflexivity|].
  split; [destruct o as [[|] [|] ?]; reflexivity|].
  split; [destruct o as [[|] [|] ?]; reflexivity|].
  rewrite run_channel_cell, run_cons. cbn [cell_step].
  rewrite send_eq. cbn.
  rewrite (run_filled (repeat OpTryRecv n) v); cbn.
  rewrite map_repeat'. reflexivity.
Qed.

(** C9: the [assert self._state.sent] of [try_recv] and [recv] (and
    [assert self._sent] of [OneShot]) never fails in a reached state: no
    sequence of calls on a fresh channel raises [AssertionError]. *)
Theorem assertion_unreachable {A} (ops : list (op A)) (h : Heap A) :
  fst (try_recv (reached ops)) <> Raise AssertionError /\
  fst (recv (reached ops)) <> Raise AssertionError /\
  ~ In (Raise AssertionError) (fst (run_channel ops h)) /\
  ~ In (Raise AssertionError) (fst (run_oneshot ops)).
Proof.
  rewrite run_channel_cell, run_oneshot_cell, reached_eq.
  split; [|split]; [destruct (first_sent (history ops)); discriminate
                  | destruct (first_sent (history ops)); discriminate |].
  split; apply run_no_assert; discriminate.
Qed.

(** C10: when [None] is sent, [try_recv()] returns [None], as it does on a
    channel where nothing was sent, in both modules. *)
Theorem sent_none_looks_empty {A} (h : Heap A) :
  fst (run_channel [OpSend PyNone; OpTryRecv] h) = [Ret PyNone; Ret PyNone] /\
  fst (run_channel [OpTryRecv] h) = [Ret PyNone] /\
  fst (run_oneshot [OpSend (@PyNone A); OpTryRecv]) = [Ret PyNone; Ret PyNone] /\
  fst (run_oneshot [@OpTryRecv A]) = [Ret PyNone].
Proof. rewrite !run_channel_cell. repeat split; reflexivity. Qed.

(** ** Witnesses *)

Lemma second_send_keeps_value_witness :
  first_sent (history [OpSend (PyObj 4)]) = Some (PyObj 4) /\
  send (PyObj 5) (reached [OpSend (PyObj 4)]) =
    (Raise ValueError, reached [OpSend (PyObj 4)]) /\
  fst (try_recv (reached [OpSend (PyObj 4)])) = Ret (@PyObj nat 4).
Proof.
  split; [reflexivity|].
  apply (second_send_keeps_value [OpSend (PyObj 4)] (PyObj 4) (PyObj 5)).
  reflexivity.
Defined.

Lemma recv_when_set_witness :
  waker (reached [OpSend (@PyObj nat 9)]) = true /\
  exists v, first_sent (history [OpSend (@PyObj nat 9)]) = Some v /\
            recv (reached [OpSend (@PyObj nat 9)]) =
            (Ret v, reached [OpSend (@PyObj nat 9)]).
Proof.
  split; [reflexivity|].
  apply (recv_when_set [OpSend (PyObj 9)]). reflexivity.
Defined.

(** * Further properties of the code *)

Section Extra.

Context {A : Type}.

Lemma upd_other (c : nat -> SharedState A) l l' x :
  l' <> l -> upd c l x l' = c l'.
Proof. intros H. unfold upd. apply Nat.eqb_neq in H. rewrite H. reflexivity. Qed.

Lemma on_state_other {X} l l' (m : St (SharedState A) X) (h : Heap A) :
  l' <> l -> cells (snd (on_state l m h)) l' = cells h l'.
Proof.
  intros H. unfold on_state. destruct (m (cells h l)). cbn. now apply upd_other.
Qed.

(** Calls through the handles of the state at [l] leave every other shared
    state as it was. *)
Lemma run_channel_other l l' (ops : list (op A)) (h : Heap A) :
  l' <> l ->
  cells (snd (run (channel_step (mkOneShotSender l) (mkOneShotReceiver l)) ops h)) l'
  = cells h l'.
Proof.
  intros Hne. revert h. induction ops as [|o ops IH]; intros h; [reflexivity|].
  rewrite run_cons.
  assert (Hs : cells (snd (channel_step (mkOneShotSender l) (mkOneShotReceiver l) o h)) l'
               = cells h l')
    by (destruct o; cbn [channel_step];
        unfold OneShotSender_send, OneShotReceiver_try_recv, OneShotReceiver_recv;
        apply on_state_other; exact Hne).
  destruct (channel_step _ _ o h) as [[] h'];
    cbn in *; rewrite ?IH; exact Hs.
Qed.

Lemma send_outcomes_filled (ops : list (op A)) (v : pyval A) :
  exists n, send_outcomes (combine ops (fst (run cell_step ops (filled v))))
            = repeat (Raise ValueError) n.
Proof.
  rewrite run_filled. cbn.
  induction ops as [|o ops [n IH]]; [exists 0; reflexivity|].
  destruct o; [exists (S n) | exists n | exists n];
    unfold send_outcomes in *; cbn; rewrite IH; reflexivity.
Qed.

End Extra.

(** X: after [oneshot_channel()] is called twice, the calls made on either
    channel return what they return on a fresh channel, whatever calls were
    made on the other one before. *)
Theorem channels_independent {A} (h : Heap A) (ops1 ops2 : list (op A)) :
  let '((tx1, rx1), h1) := oneshot_channel h in
  let '((tx2, rx2), h2) := oneshot_channel h1 in
  fst (run (channel_step tx2 rx2) ops2 (snd (run (channel_step tx1 rx1) ops1 h2)))
  = fst (run cell_step ops2 new_SharedState) /\
  fst (run (channel_step tx1 rx1) ops1 (snd (run (channel_step tx2 rx2) ops2 h2)))
  = fst (run cell_step ops1 new_SharedState).
Proof.
  cbn. split; apply channel_cell_sim.
  - rewrite run_channel_other by lia. apply upd_same.
  - rewrite run_channel_other by lia. cbn.
    rewrite upd_other by lia. apply upd_same.
Qed.

(** X: in any sequence of calls on a fresh channel, of either module, the
    first [send] returns [None] and every later [send] raises
    [ValueError]. *)
Theorem first_send_only {A} (ops : list (op A)) (h : Heap A) :
  (send_outcomes (combine ops (fst (run_channel ops h))) = [] \/
   exists n, send_outcomes (combine ops (fst (run_channel ops h)))
             = Ret PyNone :: repeat (Raise ValueError) n) /\
  (send_outcomes (combine ops (fst (run_oneshot ops))) = [] \/
   exists n, send_outcomes (combine ops (fst (run_oneshot ops)))
             = Ret PyNone :: repeat (Raise ValueError) n).
Proof.
  rewrite run_channel_cell, run_oneshot_cell.
  cut (send_outcomes (combine ops (fst (run cell_step ops new_SharedState))) = [] \/
       exists n, send_outcomes (combine ops (fst (run cell_step ops new_SharedState)))
                 = Ret PyNone :: repeat (Raise ValueError) n); [tauto|].
  induction ops as [|o ops IH]; [left; reflexivity|].
  rewrite run_cons. destruct o as [v| |]; cbn [cell_step].
  - rewrite send_eq. cbn. right.
    destruct (send_outcomes_filled ops v) as [n Hn]. exists n.
    unfold send_outcomes in *. cbn. rewrite Hn. reflexivity.
  - rewrite try_recv_eq. cbn. exact IH.
  - rewrite recv_eq. cbn. left. destruct ops; reflexivity.
Qed.

(** X: once a [send] of [v] has gone through, every later call on the
    channel has a fixed outcome, in both modules: [send] raises
    [ValueError], [try_recv] and [recv] return [v]. *)
Theorem after_send_fixed {A} (v : pyval A) (ops : list (op A)) (h : Heap A) :
  let later := map (fun o => match o with
                             | OpSend _ => Raise ValueError
                             | _ => Ret v end) ops in
  fst (run_channel (OpSend v :: ops) h) = Ret PyNone :: later /\
  fst (run_oneshot (OpSend v :: ops)) = Ret PyNone :: later.
Proof.
  cbn zeta. rewrite run_channel_cell, run_oneshot_cell, run_cons.
  cbn [cell_step]. rewrite send_eq. cbn. rewrite run_filled. split; reflexivity.
Qed.

(** X: a [recv()] on a fresh aio_sync channel suspends; after other tasks'
    calls in which a [send] of [v] went through, the suspended task resumes
    and [recv] returns [v] (the scenario of
    [test_oneshot_recv_waits_for_value]). *)
Theorem suspended_recv_resumes {A} (h : Heap A) (ops : list (op A)) (v : pyval A) :
  first_sent (history ops) = Some v ->
  let '((tx, rx), h1) := oneshot_channel h in
  fst (OneShotReceiver_recv rx h1) = Suspend /\
  fst (OneShotReceiver_recv_resume rx
         (snd (run (channel_step tx rx) ops (snd (OneShotReceiver_recv rx h1)))))
  = Ret v.
Proof.
  intros Hv. cbn. unfold OneShotReceiver_recv, on_state.
  cbn [receiver_state cells]. rewrite upd_same. cbn. split; [reflexivity|].
  unfold OneShotReceiver_recv_resume, on_state. cbn [receiver_state].
  destruct (channel_cell_sim (next h) ops
              {| cells := upd (upd (cells h) (next h) new_SharedState) (next h)
                            new_SharedState;
                 next := S (next h) |} new_SharedState) as [_ Hc].
  - cbn. apply upd_same.
  - rewrite Hc.
    change (snd (run cell_step ops new_SharedState)) with (reached ops).
    rewrite reached_eq, Hv. reflexivity.
Qed.

(** X: a [recv()] that suspends on a channel where nothing was sent leaves
    the channel as it was: if the waiting task is abandoned, later calls
    behave as on a fresh channel. *)
Theorem abandoned_recv_harmless {A} (h : Heap A) (ops : list (op A)) :
  let '((tx, rx), h1) := oneshot_channel h in
  fst (OneShotReceiver_recv rx h1) = Suspend /\
  fst (run (channel_step tx rx) ops (snd (OneShotReceiver_recv rx h1)))
  = fst (run cell_step ops new_SharedState).
Proof.
  cbn. unfold OneShotReceiver_recv, on_state.
  cbn [receiver_state cells]. rewrite upd_same. cbn. split; [reflexivity|].
  apply channel_cell_sim. cbn. apply upd_same.
Qed.

(** X: [OneShot.channel()] returns a sender and a receiver bound to one
    new shared state; calls through its fields behave as on a fresh
    channel, and the objects allocated before are untouched. *)
Theorem OneShot_channel_fresh {A} (h : Heap A) (ops : list (op A)) (l : nat) :
  l < next h ->
  let '(ch, h1) := aio_sync.channel h in
  sender_state (aio_sync.sender ch) = receiver_state (aio_sync.receiver ch) /\
  cells h1 l = cells h l /\
  fst (run (channel_step (aio_sync.sender ch) (aio_sync.receiver ch)) ops h1)
  = fst (run cell_step ops new_SharedState).
Proof.
  intros Hl. cbn. split; [reflexivity|]. split.
  - apply upd_other. lia.
  - apply channel_cell_sim. cbn. apply upd_same.
Qed.

(** ** Witnesses of the further properties *)

Lemma suspended_recv_resumes_witness :
  first_sent (history [OpSend (@PyObj nat 9)]) = Some (PyObj 9) /\
  let '((tx, rx), h1) := oneshot_channel (@init_heap nat) in
  fst (OneShotReceiver_recv rx h1) = Suspend /\
  fst (OneShotReceiver_recv_resume rx
         (snd (run (channel_step tx rx) [OpSend (PyObj 9)]
                 (snd (OneShotReceiver_recv rx h1)))))
  = Ret (PyObj 9).
Proof.
  split; [reflexivity|].
  apply (suspended_recv_resumes init_heap [OpSend (PyObj 9)] (PyObj 9)).
  reflexivity.
Defined.

Lemma OneShot_channel_fresh_witness :
  0 < next (snd (oneshot_channel (@init_heap nat))) /\
  let '(ch, h1) := aio_sync.channel (snd (oneshot_channel (@init_heap nat))) in
  sender_state (aio_sync.sender ch) = receiver_state (aio_sync.receiver ch) /\
  cells h1 0 = cells (snd (oneshot_channel (@init_heap nat))) 0 /\
  fst (run (channel_step (aio_sync.sender ch) (aio_sync.receiver ch))
         [OpSend (PyObj 1); OpTryRecv] h1)
  = fst (run cell_step [OpSend (@PyObj nat 1); OpTryRecv] new_SharedState).
Proof.
  split; [cbn; lia|].
  apply (OneShot_channel_fresh _ [OpSend (PyObj 1); OpTryRecv] 0).
  cbn; lia.
Defined.
